(** * The verification runner of react-simple-flip

    A shallow embedding of [jules-scratch/verification/verify_animation_styles.py]:
    a straight-line Playwright script, run inside [with sync_playwright()].

    The script calls into the browser automation layer and never inspects
    what it gets back, beyond the two handles (browser, page).  Each call
    either returns or raises; which of the two, and how long the call takes,
    is decided outside the script.  The model therefore threads a process
    state (clock, disk, open handles, log of calls) through an exception
    monad, and takes the behaviour of the outside world as an [env].

    An [env] is arbitrary unless a statement restricts it: properties of the
    call sequence hold whatever the calls answer.  [conforms] singles out
    the worlds that keep to the documented argument domain of
    [wait_for_selector]. *)

From stdpp Require Import gmap strings list fin_maps.
From Stdlib Require Import ZArith.

Local Open Scope Z_scope.

(** ** Values the script handles *)

(** Exceptions.  The script has no [try]; it never looks at an exception.
    The kinds are those the automation layer reports: an unreachable target,
    an expired wait, an element that cannot be acted on, and a call rejected
    because an argument is outside the domain the API documents. *)
Inductive exn : Type :=
| NavigationError
| TimeoutError
| InteractionError
| ApiError.

Inductive browser_type : Type := Chromium | Firefox | Webkit.

(** The object bound by [with sync_playwright() as playwright]. *)
Record playwright_obj : Type := Playwright {
  chromium : browser_type;
  firefox : browser_type;
  webkit : browser_type
}.

Inductive browser : Type := Browser (id : nat).
Inductive page : Type := Page (owner : browser) (id : nat).

(** [page.locator(selector)] and [page.get_by_role(role, name=...)] build a
    locator and touch nothing. *)
Inductive locator : Type :=
| Css (selector : string)
| Role (role : string) (name : string).

Definition locator_of (p : page) (selector : string) : locator := Css selector.
Definition get_by_role (p : page) (role : string) (name : string) : locator :=
  Role role name.

(** Calls that cross into the automation layer, with the arguments the
    source passes.  A keyword argument the source may omit is an [option]. *)
Inductive call : Type :=
| Start                                                  (* sync_playwright().__enter__() *)
| Launch (bt : browser_type) (headless : bool)           (* <bt>.launch(headless=...) *)
| NewPage (b : browser)                                  (* browser.new_page() *)
| Goto (p : page) (url : string)                         (* page.goto(url) *)
| WaitForSelector (p : page) (selector : string) (state : option string)
| Fill (p : page) (target : locator) (value : string)    (* locator.fill(value) *)
| Click (p : page) (target : locator)                    (* locator.click() *)
| WaitForTimeout (p : page) (ms : Z)                     (* page.wait_for_timeout(ms) *)
| Screenshot (p : page) (path : option string) (full_page : option bool)
| Close (b : browser)                                    (* browser.close() *)
| Stop.                                                  (* sync_playwright().__exit__() *)

Global Instance exn_eq_dec : EqDecision exn.
Proof. solve_decision. Defined.
Global Instance browser_type_eq_dec : EqDecision browser_type.
Proof. solve_decision. Defined.
Global Instance browser_eq_dec : EqDecision browser.
Proof. solve_decision. Defined.
Global Instance page_eq_dec : EqDecision page.
Proof. solve_decision. Defined.
Global Instance locator_eq_dec : EqDecision locator.
Proof. solve_decision. Defined.
Global Instance call_eq_dec : EqDecision call.
Proof. solve_decision. Defined.

(** ** The outside world *)

(** What the world answers to a call: whether it raises, and how many
    milliseconds pass beyond what the call itself asks for. *)
Record env : Type := Env {
  outcome : call -> option exn;
  latency : call -> N
}.

(** A screenshot on disk: which page, when, and whether the whole
    scrollable page or only the viewport was captured. *)
Record image : Type := Image {
  img_page : page;
  img_time : Z;
  img_full_page : bool
}.

Record event : Type := Event {
  ev_call : call;
  ev_start : Z;
  ev_end : Z;
  ev_outcome : option exn
}.

(** What a process is started with.  The script imports neither [sys] nor
    [os]: nothing below reads [argv] or [environ], and [cwd] matters only
    where a relative path reaches the disk. *)
Record invocation : Type := Invocation {
  argv : list string;
  environ : gmap string string;
  cwd : string;                   (* current working directory *)
  disk : gmap string image        (* image files present at start *)
}.

Record process : Type := Process {
  input : invocation;
  clock : Z;                      (* milliseconds since process start *)
  files : gmap string image;      (* image files on disk, by absolute path *)
  driver_up : bool;               (* the Playwright driver is running *)
  open_browsers : list browser;
  open_pages : list page;
  fresh : nat;                    (* next handle id *)
  trace : list event              (* calls made so far, oldest first *)
}.

Definition initial (i : invocation) : process :=
  {| input := i; clock := 0; files := disk i; driver_up := false;
     open_browsers := []; open_pages := []; fresh := 0; trace := [] |}.

(** ** Library behaviour the script relies on *)

(** [Page.screenshot]: [full_page] defaults to false (viewport only). *)
Definition default_full_page : bool := false.

Definition effective_full_page (o : option bool) : bool :=
  default default_full_page o.

(** [Page.wait_for_selector]: the states the API documents. *)
Definition wait_states : list string :=
  ["attached"; "detached"; "visible"; "hidden"]%string.

(** A relative path is resolved against the working directory.  The join
    is plain text: no separator is merged and no dot segment removed, so a
    directory that ends in a slash gives a doubled one. *)
Definition is_absolute (path : string) : bool := String.prefix "/" path.

Definition resolve (dir path : string) : string :=
  if is_absolute path then path else (dir +:+ "/" +:+ path)%string.

Definition owner_of (p : page) : browser :=
  match p with Page b _ => b end.

(** Time a call takes: a delay that returns has lasted at least the
    milliseconds it was asked for. *)
Definition duration (E : env) (c : call) : Z :=
  match c, outcome E c with
  | WaitForTimeout _ ms, None => Z.max 0 ms + Z.of_N (latency E c)
  | _, _ => Z.of_N (latency E c)
  end.

(** Effect on the process of a call that returned. *)
Definition effect (c : call) (s : process) : process :=
  match c with
  | Start =>
      {| input := input s; clock := clock s; files := files s; driver_up := true;
         open_browsers := open_browsers s; open_pages := open_pages s;
         fresh := fresh s; trace := trace s |}
  | Launch _ _ =>
      {| input := input s; clock := clock s; files := files s;
         driver_up := driver_up s;
         open_browsers := Browser (fresh s) :: open_browsers s;
         open_pages := open_pages s;
         fresh := S (fresh s); trace := trace s |}
  | NewPage b =>
      {| input := input s; clock := clock s; files := files s;
         driver_up := driver_up s;
         open_browsers := open_browsers s;
         open_pages := Page b (fresh s) :: open_pages s;
         fresh := S (fresh s); trace := trace s |}
  | Screenshot p (Some path) fp =>
      {| input := input s; clock := clock s;
         files := <[resolve (cwd (input s)) path :=
                      Image p (clock s) (effective_full_page fp)]> (files s);
         driver_up := driver_up s;
         open_browsers := open_browsers s; open_pages := open_pages s;
         fresh := fresh s; trace := trace s |}
  | Close b =>
      {| input := input s; clock := clock s; files := files s;
         driver_up := driver_up s;
         open_browsers := filter (λ b', b' ≠ b) (open_browsers s);
         open_pages := filter (λ p, owner_of p ≠ b) (open_pages s);
         fresh := fresh s; trace := trace s |}
  | Stop =>
      (* stopping the driver shuts down every browser it launched *)
      {| input := input s; clock := clock s; files := files s; driver_up := false;
         open_browsers := []; open_pages := [];
         fresh := fresh s; trace := trace s |}
  | _ => s
  end.

(** ** The monad: state and exceptions *)

Inductive result (A : Type) : Type :=
| Ok (a : A)
| Raise (e : exn).
Arguments Ok {A} a.
Arguments Raise {A} e.

Definition M (A : Type) : Type := process -> result A * process.

Global Instance M_ret : MRet M := fun A a s => (Ok a, s).

Global Instance M_bind : MBind M := fun A B k m s =>
  match m s with
  | (Ok a, s') => k a s'
  | (Raise e, s') => (Raise e, s')
  end.

(** Record the call, let its time pass, then return or raise as the world
    says.  A call that raises is given no effect; for a screenshot with a
    path that leaves out a failure while the file is being written. *)
Definition logged (c : call) (t0 t1 : Z) (o : option exn) (s : process) : process :=
  {| input := input s; clock := t1; files := files s; driver_up := driver_up s;
     open_browsers := open_browsers s; open_pages := open_pages s;
     fresh := fresh s; trace := trace s ++ [Event c t0 t1 o] |}.

Definition invoke (E : env) (c : call) : M unit := fun s =>
  let s' := logged c (clock s) (clock s + duration E c) (outcome E c) s in
  match outcome E c with
  | Some e => (Raise e, s')
  | None => (Ok tt, effect c s')
  end.

(** ** The automation calls, as the script spells them *)

Definition launch (E : env) (bt : browser_type) (headless : bool) : M browser :=
  fun s =>
    match invoke E (Launch bt headless) s with
    | (Ok _, s') => (Ok (Browser (fresh s)), s')
    | (Raise e, s') => (Raise e, s')
    end.

Definition new_page (E : env) (b : browser) : M page := fun s =>
  match invoke E (NewPage b) s with
  | (Ok _, s') => (Ok (Page b (fresh s)), s')
  | (Raise e, s') => (Raise e, s')
  end.

Definition goto (E : env) (p : page) (url : string) : M unit :=
  invoke E (Goto p url).
Definition wait_for_selector (E : env) (p : page) (selector : string)
    (state : option string) : M unit :=
  invoke E (WaitForSelector p selector state).
Definition fill (E : env) (p : page) (target : locator) (value : string) : M unit :=
  invoke E (Fill p target value).
Definition click (E : env) (p : page) (target : locator) : M unit :=
  invoke E (Click p target).
Definition wait_for_timeout (E : env) (p : page) (ms : Z) : M unit :=
  invoke E (WaitForTimeout p ms).
Definition screenshot (E : env) (p : page) (path : option string)
    (full_page : option bool) : M unit :=
  invoke E (Screenshot p path full_page).
Definition close (E : env) (b : browser) : M unit :=
  invoke E (Close b).

(** [with sync_playwright() as playwright: body].  If [__enter__] raises the
    body and [__exit__] are skipped.  Otherwise [__exit__] runs however the
    body ends; it stops the driver and returns [None], so an exception of
    the body is raised again after it. *)
Definition stop : process -> process := fun s =>
  effect Stop (logged Stop (clock s) (clock s) None s).

Definition with_sync_playwright {A} (E : env) (body : playwright_obj -> M A) : M A :=
  fun s =>
    match invoke E Start s with
    | (Raise e, s1) => (Raise e, s1)
    | (Ok _, s1) =>
        let '(r, s2) := body (Playwright Chromium Firefox Webkit) s1 in
        (r, stop s2)
    end.

(** ** The script *)

Definition dq : string := String (Ascii.ascii_of_nat 34) EmptyString.

Definition run (E : env) (playwright : playwright_obj) : M unit :=
  browser ← launch E (chromium playwright) true;
  page ← new_page E browser;
  goto E page "http://localhost:5173";;
  wait_for_selector E page "h1" None;;
  let input_selector : string := ("[name=" +:+ dq +:+ "title" +:+ dq +:+ "]")%string in
  wait_for_selector E page input_selector (Some "visible"%string);;
  wait_for_selector E page input_selector (Some "enabled"%string);;
  fill E page (locator_of page input_selector) "New Todo Item";;
  click E page (get_by_role page "button" "Add");;
  wait_for_timeout E page 1000;;
  screenshot E page (Some "jules-scratch/verification/verification.png"%string) None;;
  close E browser.

Definition main (E : env) : M unit :=
  with_sync_playwright E (fun playwright => run E playwright).

(** ** Reading a run *)

Definition calls (s : process) : list call := map ev_call (trace s).

(** The handles a run obtains: ids are handed out from 0. *)
Definition the_browser : browser := Browser 0.
Definition the_page : page := Page (Browser 0) 1.

(** The body of [run], call by call. *)
Definition program : list call :=
  [ Launch Chromium true;
    NewPage the_browser;
    Goto the_page "http://localhost:5173";
    WaitForSelector the_page "h1" None;
    WaitForSelector the_page ("[name=" +:+ dq +:+ "title" +:+ dq +:+ "]") (Some "visible");
    WaitForSelector the_page ("[name=" +:+ dq +:+ "title" +:+ dq +:+ "]") (Some "enabled");
    Fill the_page (Css ("[name=" +:+ dq +:+ "title" +:+ dq +:+ "]")) "New Todo Item";
    Click the_page (Role "button" "Add");
    WaitForTimeout the_page 1000;
    Screenshot the_page (Some "jules-scratch/verification/verification.png") None;
    Close the_browser ]%string.

(** Calls of [cs] that get made: up to and including the first that raises. *)
Fixpoint issued (E : env) (cs : list call) : list call :=
  match cs with
  | [] => []
  | c :: rest =>
      c :: match outcome E c with
           | None => issued E rest
           | Some _ => []
           end
  end.

Fixpoint first_failure (E : env) (cs : list call) : option exn :=
  match cs with
  | [] => None
  | c :: rest =>
      match outcome E c with
      | Some e => Some e
      | None => first_failure E rest
      end
  end.

(** Which calls are of which kind. *)
Definition is_launch (c : call) : bool :=
  match c with Launch _ _ => true | _ => false end.
Definition is_new_page (c : call) : bool :=
  match c with NewPage _ => true | _ => false end.
Definition is_goto (c : call) : bool :=
  match c with Goto _ _ => true | _ => false end.
Definition is_wait_for_selector (c : call) : bool :=
  match c with WaitForSelector _ _ _ => true | _ => false end.
Definition is_fill (c : call) : bool :=
  match c with Fill _ _ _ => true | _ => false end.
Definition is_delay (c : call) : bool :=
  match c with WaitForTimeout _ _ => true | _ => false end.
Definition is_screenshot (c : call) : bool :=
  match c with Screenshot _ _ _ => true | _ => false end.

(** A launch that returned holds a browser; a [close] or the driver's stop
    that returned gives it back. *)
Definition acquires (ev : event) : bool :=
  match ev_call ev, ev_outcome ev with
  | Launch _ _, None => true
  | _, _ => false
  end.

Definition releases (ev : event) : bool :=
  match ev_call ev, ev_outcome ev with
  | Close _, None | Stop, None => true
  | _, _ => false
  end.

Fixpoint every_launch_released (evs : list event) : bool :=
  match evs with
  | [] => true
  | ev :: rest =>
      (if acquires ev then existsb releases rest else true)
      && every_launch_released rest
  end.

(** A world that keeps to the documented domain of [wait_for_selector]:
    a state outside [wait_states] is rejected, whatever the page shows. *)
Definition conforms (E : env) : Prop :=
  ∀ p selector st,
    st ∉ wait_states →
    outcome E (WaitForSelector p selector (Some st)) = Some ApiError.

(** Where the screenshot of an invocation lands. *)
Definition output_file (i : invocation) : string :=
  resolve (cwd i) "jules-scratch/verification/verification.png".

(** The invocation that follows a run: same inputs, the disk as the run
    left it. *)
Definition rerun (i : invocation) (s : process) : invocation :=
  Invocation (argv i) (environ i) (cwd i) (files s).

(** Steps 3 to 7 of the run: navigation, the waits, fill and click. *)
Definition steps_3_to_7 : list call := take 6 (drop 2 program).

Definition ms_per_second : Z := 1000.

(** ** Sample worlds and invocations *)

(** Every call returns at once. *)
Definition all_ok : env := Env (λ _, None) (λ _, 0%N).

(** Nothing listens on the port; every call takes 3 ms. *)
Definition no_server : env :=
  Env (λ c, match c with Goto _ _ => Some NavigationError | _ => None end)
      (λ _, 3%N).

(** The application is up and every element is visible and enabled; the
    API rejects what it does not document; every call takes 5 ms. *)
Definition app_ready : env :=
  Env (λ c, match c with
            | WaitForSelector _ _ (Some st) =>
                if bool_decide (st ∈ wait_states) then None else Some ApiError
            | _ => None
            end)
      (λ _, 5%N).

(** The heading never shows up. *)
Definition no_heading : env :=
  Env (λ c, match c with
            | WaitForSelector _ "h1" _ => Some TimeoutError
            | _ => None
            end)
      (λ _, 1%N).

(** Every call returns, 3 ms later than it could. *)
Definition slow_ok : env := Env (λ _, None) (λ _, 3%N).

Definition sample : invocation :=
  Invocation ["verify_animation_styles.py"] ∅ "/repo" ∅.

(** Another invocation: extra arguments, a variable set, another directory,
    and an older screenshot already on disk. *)
Definition sample' : invocation :=
  Invocation ["verify_animation_styles.py"; "--headed"]
             {["HEADLESS" := "0"]}
             "/tmp"
             {["/tmp/jules-scratch/verification/verification.png" :=
                 Image the_page 7 true]}.

(** ** The run as a whole *)

(** Every call the process can make, in the order of the source: the
    driver's start, the body of [run], the driver's stop. *)
Definition script : list call := Start :: program ++ [Stop].

(** [b] comes right after [a] in [l]. *)
Definition follows (l : list call) (a b : call) : Prop :=
  ∃ k : nat, l !! k = Some a ∧ l !! S k = Some b.

(** The exceptions raised during a run, oldest first. *)
Definition raised (evs : list event) : list exn := omap ev_outcome evs.

(** The page a call acts on, and the browser a call acts on. *)
Definition page_of (c : call) : option page :=
  match c with
  | Goto p _ | WaitForSelector p _ _ | Fill p _ _ | Click p _
  | WaitForTimeout p _ | Screenshot p _ _ => Some p
  | _ => None
  end.

Definition browser_of (c : call) : option browser :=
  match c with
  | NewPage b | Close b => Some b
  | _ => None
  end.

(** The driver cannot be started. *)
Definition no_driver : env :=
  Env (λ c, match c with Start => Some ApiError | _ => None end) (λ _, 2%N).

(** Everything works, but closing the browser raises. *)
Definition close_fails : env :=
  Env (λ c, match c with Close _ => Some InteractionError | _ => None end)
      (λ _, 1%N).

(** Everything works up to the delay, which raises (the page was closed
    under it). *)
Definition delay_fails : env :=
  Env (λ c, match c with WaitForTimeout _ _ => Some InteractionError | _ => None end)
      (λ _, 1%N).

(** [app_ready] again, every call 9 ms slower. *)
Definition app_ready_later : env :=
  Env (outcome app_ready) (λ _, 14%N).

(** ** Symbolic execution of the script *)

Ltac unfold_script :=
  unfold main, with_sync_playwright, run, stop, launch, new_page, goto,
    wait_for_selector, fill, click, wait_for_timeout, screenshot, close,
    locator_of, get_by_role, mbind, M_bind, invoke, duration.

Ltac next_call E :=
  match goal with
  | |- context [outcome E ?c] => destruct (outcome E c) eqn:?; cbn
  end.

(** A call is not in a list of calls of other shapes. *)
Ltac not_in H :=
  repeat (apply elem_of_cons in H as [H|H]; [discriminate H|]);
  by apply elem_of_nil in H.

(** Go through the events of a trace; [Hs] says the event is a call of the
    kind looked for. *)
Ltac in_trace H Hs :=
  repeat (apply elem_of_cons in H as [->|H]; [try (by cbn in Hs)|]);
  try (by apply elem_of_nil in H).

(** Find where two calls sit next to each other in the script. *)
Ltac find_follow :=
  first [ exists 0%nat; split; reflexivity | exists 1%nat; split; reflexivity
        | exists 2%nat; split; reflexivity | exists 3%nat; split; reflexivity
        | exists 4%nat; split; reflexivity | exists 5%nat; split; reflexivity
        | exists 6%nat; split; reflexivity | exists 7%nat; split; reflexivity
        | exists 8%nat; split; reflexivity | exists 9%nat; split; reflexivity
        | exists 10%nat; split; reflexivity | exists 11%nat; split; reflexivity ].

(** Go through the positions of two neighbouring events of a trace. *)
Ltac adjacent Ha Hb :=
  do 14 (try (match goal with
              | n : nat |- _ =>
                  destruct n as [|?];
                  [cbn in Ha, Hb; rewrite ?lookup_nil in Ha, Hb;
                   first [ discriminate Hb | discriminate Ha
                         | injection Ha as <-; injection Hb as <-;
                           split; [reflexivity|];
                           first [ left; split; [reflexivity|find_follow]
                                 | right; split; [discriminate|reflexivity] ] ]|]
              end));
  cbn in Ha; rewrite ?lookup_nil in Ha; discriminate Ha.

(** * Properties *)

Lemma main_calls (E : env) (i : invocation) :
  calls (main E (initial i)).2 =
  match outcome E Start with
  | Some _ => [Start]
  | None => Start :: issued E program ++ [Stop]
  end.
Proof.
  unfold calls, program, the_page, the_browser. unfold_script. cbn.
  repeat (next_call E; try reflexivity).
Qed.

Lemma main_result (E : env) (i : invocation) :
  (main E (initial i)).1 =
  match first_failure E (Start :: program) with
  | Some e => Raise e
  | None => Ok tt
  end.
Proof.
  unfold program, the_page, the_browser. unfold_script. cbn.
  repeat (next_call E; try reflexivity).
Qed.

(** The disk changes only when the screenshot call returns, and then only
    at the output file. *)
Lemma main_files (E : env) (i : invocation) :
  ∃ t, files (main E (initial i)).2 =
       match first_failure E (Start :: take 10 program) with
       | Some _ => disk i
       | None => <[output_file i := Image the_page t false]> (disk i)
       end.
Proof.
  unfold program, the_page, the_browser, output_file. unfold_script. cbn.
  repeat (next_call E; try (by exists 0)).
  all: eexists; reflexivity.
Qed.

Section issued.
Context (E : env).

Lemma issued_prefix (cs : list call) : issued E cs `prefix_of` cs.
Proof.
  induction cs as [|c cs IH]; cbn; [done|].
  destruct (outcome E c).
  - apply prefix_cons, prefix_nil.
  - by apply prefix_cons.
Qed.

Lemma issued_take (cs : list call) :
  issued E cs = take (length (issued E cs)) cs.
Proof.
  induction cs as [|c cs IH]; cbn; [done|].
  destruct (outcome E c); cbn; [by rewrite take_0|]. by rewrite <- IH.
Qed.

Lemma issued_elem (c : call) (cs : list call) : c ∈ issued E cs → c ∈ cs.
Proof.
  intros Hc. destruct (issued_prefix cs) as [k ->].
  apply elem_of_app. by left.
Qed.

(** Nothing is skipped: a call is reached only if all before it returned. *)
Lemma issued_all (cs : list call) :
  first_failure E cs = None → issued E cs = cs.
Proof.
  induction cs as [|c cs IH]; cbn; [done|].
  destruct (outcome E c); [done|]. intros H. by rewrite IH.
Qed.

Lemma issued_reaches (pre : list call) (c : call) (post : list call) :
  c ∈ issued E (pre ++ c :: post) → c ∉ pre →
  first_failure E pre = None.
Proof.
  induction pre as [|a pre IH]; cbn; [done|].
  intros Hin Hnot. apply not_elem_of_cons in Hnot as [Hne Hnot].
  apply elem_of_cons in Hin as [->|Hin]; [done|].
  destruct (outcome E a); [by apply elem_of_nil in Hin|]. by apply IH.
Qed.

Lemma first_failure_app (pre post : list call) :
  first_failure E (pre ++ post) =
  match first_failure E pre with
  | Some e => Some e
  | None => first_failure E post
  end.
Proof.
  induction pre as [|a pre IH]; cbn; [done|]. by destruct (outcome E a).
Qed.

Lemma first_failure_elem (cs : list call) (c : call) :
  c ∈ cs → is_Some (outcome E c) → is_Some (first_failure E cs).
Proof.
  induction cs as [|a cs IH]; cbn; intros Hin Hc.
  - by apply elem_of_nil in Hin.
  - destruct (outcome E a) eqn:Ha; [by eexists|].
    apply elem_of_cons in Hin as [->|Hin]; [|by apply IH].
    rewrite Ha in Hc. by destruct Hc.
Qed.
End issued.

(** Every call of a run is the driver's start or stop, or a call of
    [program]. *)
Lemma main_calls_elem (E : env) (i : invocation) (c : call) :
  c ∈ calls (main E (initial i)).2 → c = Start ∨ c = Stop ∨ c ∈ program.
Proof.
  rewrite main_calls. destruct (outcome E Start).
  - intros ->%list_elem_of_singleton. by left.
  - intros [->|[H| ->%list_elem_of_singleton]%elem_of_app]%elem_of_cons; auto.
    right; right. by eapply issued_elem.
Qed.

Lemma enabled_not_documented : "enabled"%string ∉ wait_states.
Proof. intros H. unfold wait_states in H. not_in H. Qed.

(** The script's own [close] is reached only when every step before it
    returned: on a failing path the browser is given back by the driver's
    stop alone. *)
Remark close_only_after_all_steps (E : env) (i : invocation) :
  Close the_browser ∈ calls (main E (initial i)).2 →
  first_failure E (Start :: take 10 program) = None.
Proof.
  rewrite main_calls. destruct (outcome E Start) eqn:H0.
  - intros H. not_in H.
  - intros [H|[H|H]%elem_of_app]%elem_of_cons; [discriminate H| |not_in H].
    change program with (take 10 program ++ Close the_browser :: []) in H.
    apply issued_reaches in H.
    + cbn [first_failure]. by rewrite H0.
    + intros H'. cbn in H'. not_in H'.
Qed.

(** C1: on every exit path of a run, whichever step raises, the browser
    acquired at the start has been released when the process ends: no
    browser or page is left open, the driver is down, and every launch that
    returned is followed by a [close] or by the driver's stop. *)
Theorem C1_browser_released_on_every_exit (E : env) (i : invocation) :
  let s := (main E (initial i)).2 in
  open_browsers s = [] ∧ open_pages s = [] ∧ driver_up s = false ∧
  every_launch_released (trace s) = true.
Proof.
  unfold_script. cbn. repeat (next_call E; try done).
Qed.

(** C2: before the input field is filled the runner is meant to block until
    the field is present and enabled, failing only with [TimeoutError].
    The second wait passes [state='enabled'], which is not a state of
    [wait_for_selector]: in any world that keeps to the documented API the
    call is rejected as soon as it is reached, with an error that is not a
    timeout, and [fill] is never called. *)
Theorem C2_enabled_wait_is_rejected (E : env) (i : invocation) :
  conforms E →
  (∀ c, c ∈ calls (main E (initial i)).2 → is_fill c = false) ∧
  (first_failure E (Start :: take 5 program) = None →
   (main E (initial i)).1 = Raise ApiError ∧
   calls (main E (initial i)).2 = Start :: take 6 program ++ [Stop]).
Proof.
  intros HE.
  pose proof (HE the_page ("[name=" +:+ dq +:+ "title" +:+ dq +:+ "]")%string
                "enabled"%string enabled_not_documented) as Hen.
  split.
  - intros c Hc. rewrite main_calls in Hc. destruct (outcome E Start) eqn:H0.
    { apply list_elem_of_singleton in Hc as ->. done. }
    apply elem_of_cons in Hc as [->|Hc]; [done|].
    apply elem_of_app in Hc as [Hc| ->%list_elem_of_singleton]; [|done].
    destruct (is_fill c) eqn:Hfill; [exfalso|done].
    pose proof (issued_elem _ _ _ Hc) as Hp.
    assert (c = Fill the_page
                  (Css ("[name=" +:+ dq +:+ "title" +:+ dq +:+ "]")) "New Todo Item")
      as ->.
    { unfold program in Hp.
      repeat (apply elem_of_cons in Hp as [->|Hp]; [done || discriminate Hfill|]).
      by apply elem_of_nil in Hp. }
    change program with (take 6 program ++ drop 6 program) in Hc.
    apply issued_reaches in Hc.
    + revert Hc. cbn in Hen |- *. repeat (next_call E; try congruence).
    + intros H'. cbn in H'. not_in H'.
  - intros Hpre. rewrite main_result, main_calls.
    change (Start :: program) with ((Start :: take 5 program) ++ drop 5 program).
    rewrite first_failure_app, Hpre.
    revert Hpre. cbn in Hen |- *. repeat (next_call E; try congruence).
    intros _. split; congruence.
Qed.

Lemma app_ready_conforms : conforms app_ready.
Proof.
  intros p selector st Hst. cbn. by rewrite bool_decide_eq_false_2.
Qed.

Lemma C2_enabled_wait_is_rejected_witness :
  conforms app_ready ∧
  (main app_ready (initial sample)).1 = Raise ApiError ∧
  calls (main app_ready (initial sample)).2 = Start :: take 6 program ++ [Stop].
Proof.
  split; [exact app_ready_conforms|].
  apply (C2_enabled_wait_is_rejected app_ready sample app_ready_conforms).
  reflexivity.
Defined.

Lemma success_all_returned (E : env) (i : invocation) :
  (main E (initial i)).1 = Ok tt → first_failure E (Start :: program) = None.
Proof.
  rewrite main_result. by destruct (first_failure E (Start :: program)).
Qed.

Lemma success_calls (E : env) (i : invocation) :
  (main E (initial i)).1 = Ok tt →
  calls (main E (initial i)).2 = Start :: program ++ [Stop].
Proof.
  intros H%success_all_returned. rewrite main_calls.
  cbn [first_failure] in H. destruct (outcome E Start); [done|].
  by rewrite issued_all.
Qed.

Lemma success_files (E : env) (i : invocation) :
  (main E (initial i)).1 = Ok tt →
  ∃ t, files (main E (initial i)).2 =
       <[output_file i := Image the_page t false]> (disk i).
Proof.
  intros Hall%success_all_returned. destruct (main_files E i) as [t Ht].
  change (Start :: program) with ((Start :: take 10 program) ++ drop 10 program) in Hall.
  rewrite first_failure_app in Hall.
  destruct (first_failure E (Start :: take 10 program)); [discriminate Hall|].
  by exists t.
Qed.



(** Two runs in a row: the second finds the file of the first and replaces
    it; the disk ends with the files it had before, plus the one output
    file. *)
Corollary two_runs_one_file (E1 E2 : env) (i : invocation) :
  let s1 := (main E1 (initial i)).2 in
  let s2 := (main E2 (initial (rerun i s1))).2 in
  (main E1 (initial i)).1 = Ok tt →
  (main E2 (initial (rerun i s1))).1 = Ok tt →
  (∃ t, files s2 = <[output_file i := Image the_page t false]> (disk i)) ∧
  dom (files s2) = {[output_file i]} ∪ dom (disk i).
Proof.
  intros s1 s2 H1 H2.
  destruct (success_files E1 i H1) as [t1 Hf1].
  destruct (success_files E2 (rerun i s1) H2) as [t2 Hf2].
  assert (files s2 = <[output_file i := Image the_page t2 false]> (disk i)) as Hs2.
  { subst s2. rewrite Hf2. cbn [rerun disk]. subst s1. rewrite Hf1.
    change (output_file (rerun i _)) with (output_file i).
    apply insert_insert_eq. }
  split; [by exists t2|]. rewrite Hs2. apply dom_insert_L.
Qed.

(** A run that fails still takes at most one screenshot. *)
Lemma at_most_one_screenshot (E : env) (i : invocation) :
  (length (List.filter is_screenshot (calls (main E (initial i)).2)) ≤ 1)%nat.
Proof.
  rewrite main_calls. unfold program. cbn.
  repeat (next_call E; try lia).
Qed.

Lemma steps_3_to_7_before_screenshot (c : call) :
  c ∈ steps_3_to_7 → c ∈ take 9 program.
Proof.
  change (take 9 program) with (take 2 program ++ steps_3_to_7 ++ take 1 (drop 8 program)).
  intros H. apply elem_of_app. right. apply elem_of_app. by left.
Qed.

(** C4: when navigation, a wait, fill or click fails, the run ends with an
    exception, the screenshot call is never made, and the disk, the output
    file included, is as it was before the run. *)
Theorem C4_failed_step_leaves_disk_untouched (E : env) (i : invocation) (c : call) :
  c ∈ steps_3_to_7 → is_Some (outcome E c) →
  (∃ e, (main E (initial i)).1 = Raise e) ∧
  (∀ c', c' ∈ calls (main E (initial i)).2 → is_screenshot c' = false) ∧
  files (main E (initial i)).2 = disk i.
Proof.
  intros Hc%steps_3_to_7_before_screenshot Hfail.
  pose proof (first_failure_elem E _ _ Hc Hfail) as [e He].
  split_and!.
  - rewrite main_result.
    change (Start :: program) with ((Start :: take 9 program) ++ drop 9 program).
    rewrite first_failure_app. cbn [first_failure].
    destruct (outcome E Start); [by eexists|]. rewrite He. by eexists.
  - intros c' Hc'. rewrite main_calls in Hc'.
    destruct (outcome E Start) eqn:H0.
    { by apply list_elem_of_singleton in Hc' as ->. }
    apply elem_of_cons in Hc' as [->|Hc']; [done|].
    apply elem_of_app in Hc' as [Hc'| ->%list_elem_of_singleton]; [|done].
    destruct (is_screenshot c') eqn:Hs; [exfalso|done].
    pose proof (issued_elem _ _ _ Hc') as Hp.
    assert (c' = Screenshot the_page
                   (Some "jules-scratch/verification/verification.png"%string) None)
      as ->.
    { unfold program in Hp.
      repeat (apply elem_of_cons in Hp as [->|Hp]; [done || discriminate Hs|]).
      by apply elem_of_nil in Hp. }
    change program with (take 9 program ++ drop 9 program) in Hc'.
    apply issued_reaches in Hc'; [congruence|].
    intros H'. cbn in H'. not_in H'.
  - destruct (main_files E i) as [t ->].
    change (take 10 program) with (take 9 program ++ take 1 (drop 9 program)).
    rewrite app_comm_cons, first_failure_app. cbn [first_failure].
    destruct (outcome E Start); [done|]. by rewrite He.
Qed.

Lemma C4_failed_step_leaves_disk_untouched_witness :
  (∃ e, (main no_heading (initial sample')).1 = Raise e) ∧
  (∀ c', c' ∈ calls (main no_heading (initial sample')).2 → is_screenshot c' = false) ∧
  files (main no_heading (initial sample')).2 = disk sample'.
Proof.
  apply (C4_failed_step_leaves_disk_untouched no_heading sample'
           (WaitForSelector the_page "h1" None)).
  - unfold steps_3_to_7, program. cbn. rewrite !elem_of_cons. auto.
  - cbn. by eexists.
Defined.

(** C5: whenever the screenshot call is made, the call just before it is
    the delay, the delay has returned, it lasted at least the 1000
    milliseconds asked for, and the screenshot starts no earlier than the
    delay ends.  The world, and with it the moment the animation ends, is
    arbitrary. *)
Theorem C5_delay_elapses_before_screenshot (E : env) (i : invocation) (ev : event) :
  ev ∈ trace (main E (initial i)).2 →
  is_screenshot (ev_call ev) = true →
  ∃ pre d post,
    trace (main E (initial i)).2 = pre ++ d :: ev :: post ∧
    ev_call d = WaitForTimeout the_page 1000 ∧
    ev_outcome d = None ∧
    ev_start d + 1000 ≤ ev_end d ∧
    ev_end d ≤ ev_start ev.
Proof.
  unfold the_page. unfold_script. cbn.
  repeat (next_call E; try (solve [intros Hin Hs; in_trace Hin Hs])).
  all: intros Hin Hs; in_trace Hin Hs.
  all: eexists [_; _; _; _; _; _; _; _; _], _, _.
  all: split; [reflexivity|]; cbn; split_and!; try done; lia.
Qed.

Lemma C5_delay_elapses_before_screenshot_witness :
  let ev := Event (Screenshot the_page
                     (Some "jules-scratch/verification/verification.png"%string) None)
                  1030 1033 None in
  ev ∈ trace (main slow_ok (initial sample)).2 ∧
  ∃ pre d post,
    trace (main slow_ok (initial sample)).2 = pre ++ d :: ev :: post ∧
    ev_call d = WaitForTimeout the_page 1000 ∧
    ev_outcome d = None ∧
    ev_start d + 1000 ≤ ev_end d ∧
    ev_end d ≤ ev_start ev.
Proof.
  intros ev.
  assert (ev ∈ trace (main slow_ok (initial sample)).2) as Hin.
  { by apply (list_elem_of_lookup_2 _ 10%nat). }
  split; [exact Hin|].
  exact (C5_delay_elapses_before_screenshot slow_ok sample ev Hin eq_refl).
Defined.

(** C6: a run that has its page navigates once, to exactly
    http://localhost:5173; when that navigation raises (no server listens:
    [NavigationError]) the same exception leaves [main], and nothing but
    the driver's stop follows the failed call. *)
Theorem C6_navigation_target_and_failure (E : env) (i : invocation) :
  first_failure E (Start :: take 2 program) = None →
  List.filter is_goto (calls (main E (initial i)).2) =
    [Goto the_page "http://localhost:5173"] ∧
  ∀ e, outcome E (Goto the_page "http://localhost:5173") = Some e →
       (main E (initial i)).1 = Raise e ∧
       calls (main E (initial i)).2 =
         [Start; Launch Chromium true; NewPage the_browser;
          Goto the_page "http://localhost:5173"; Stop].
Proof.
  rewrite main_calls, main_result. unfold program. cbn.
  repeat (next_call E; try done).
  all: intros _; split; [done|]; intros e' He'; by (congruence || injection He' as <-).
Qed.

Lemma C6_navigation_target_and_failure_witness :
  first_failure no_server (Start :: take 2 program) = None ∧
  List.filter is_goto (calls (main no_server (initial sample)).2) =
    [Goto the_page "http://localhost:5173"] ∧
  (main no_server (initial sample)).1 = Raise NavigationError ∧
  calls (main no_server (initial sample)).2 =
    [Start; Launch Chromium true; NewPage the_browser;
     Goto the_page "http://localhost:5173"; Stop].
Proof.
  split; [reflexivity|].
  destruct (C6_navigation_target_and_failure no_server sample eq_refl) as [Hg Hf].
  split; [exact Hg|]. exact (Hf NavigationError eq_refl).
Defined.

(** Every navigation of any run, failed or not, has the same target. *)
Lemma goto_target (E : env) (i : invocation) (c : call) :
  c ∈ calls (main E (initial i)).2 → is_goto c = true →
  c = Goto the_page "http://localhost:5173".
Proof.
  intros [->|[->|Hc]]%main_calls_elem Hg; try discriminate Hg.
  unfold program in Hc.
  repeat (apply elem_of_cons in Hc as [->|Hc]; [done || discriminate Hg|]).
  by apply elem_of_nil in Hc.
Qed.

(** C7: the delay the script asks for is 1000 milliseconds, one second,
    in every run that gets to it, and it is asked for once. *)
Theorem C7_settle_delay_is_one_second (E : env) (i : invocation) (c : call) :
  c ∈ calls (main E (initial i)).2 → is_delay c = true →
  c = WaitForTimeout the_page (1 * ms_per_second) ∧
  1 * ms_per_second = 1000 ∧
  List.filter is_delay (calls (main E (initial i)).2) = [c].
Proof.
  rewrite main_calls. unfold program. cbn.
  repeat (next_call E; try (solve [intros Hin Hs; in_trace Hin Hs])).
  all: intros Hin Hs; in_trace Hin Hs; done.
Qed.

Lemma C7_settle_delay_is_one_second_witness :
  WaitForTimeout the_page 1000 ∈ calls (main all_ok (initial sample)).2 ∧
  WaitForTimeout the_page 1000 = WaitForTimeout the_page (1 * ms_per_second) ∧
  1 * ms_per_second = 1000 ∧
  List.filter is_delay (calls (main all_ok (initial sample)).2) =
    [WaitForTimeout the_page 1000].
Proof.
  assert (WaitForTimeout the_page 1000 ∈ calls (main all_ok (initial sample)).2) as Hin.
  { by apply (list_elem_of_lookup_2 _ 9%nat). }
  split; [exact Hin|].
  exact (C7_settle_delay_is_one_second all_ok sample _ Hin eq_refl).
Defined.

Lemma issued_ext (E E' : env) (cs : list call) :
  (∀ c, c ∈ cs → outcome E c = outcome E' c) → issued E cs = issued E' cs.
Proof.
  induction cs as [|a cs IH]; cbn; intros H; [done|].
  rewrite <- (H a) by (apply elem_of_cons; auto).
  destruct (outcome E a); [done|]. rewrite IH; [done|].
  intros c Hc. apply H, elem_of_cons. by right.
Qed.

Lemma first_failure_ext (E E' : env) (cs : list call) :
  (∀ c, c ∈ cs → outcome E c = outcome E' c) →
  first_failure E cs = first_failure E' cs.
Proof.
  induction cs as [|a cs IH]; cbn; intros H; [done|].
  rewrite <- (H a) by (apply elem_of_cons; auto).
  destruct (outcome E a); [done|]. apply IH.
  intros c Hc. apply H, elem_of_cons. by right.
Qed.

(** C8: the runner takes no inputs.  It reads no argument, variable,
    directory or file, and the arguments of its calls are constants: two
    runs in worlds that answer the calls alike make the same calls with the
    same arguments and end the same way, whatever they were started with.
    The calls made are the driver's start and, if it returned, the calls of
    [program] up to and including the first that raises, then the driver's
    stop. *)
Theorem C8_calls_do_not_depend_on_inputs (E E' : env) (i i' : invocation) :
  (∀ c, c ∈ Start :: program → outcome E c = outcome E' c) →
  calls (main E (initial i)).2 = calls (main E' (initial i')).2 ∧
  (main E (initial i)).1 = (main E' (initial i')).1 ∧
  calls (main E (initial i)).2 =
    match outcome E Start with
    | Some _ => [Start]
    | None => Start :: issued E program ++ [Stop]
    end.
Proof.
  intros H.
  assert (∀ c, c ∈ program → outcome E c = outcome E' c) as Hp.
  { intros c Hc. apply H, elem_of_cons. by right. }
  assert (outcome E Start = outcome E' Start) as H0.
  { apply H, elem_of_cons. by left. }
  split_and!.
  - by rewrite !main_calls, <- H0, (issued_ext E E' program Hp).
  - by rewrite !main_result, (first_failure_ext E E' _ H).
  - apply main_calls.
Qed.

Lemma C8_calls_do_not_depend_on_inputs_witness :
  sample ≠ sample' ∧
  app_ready ≠ app_ready_later ∧
  calls (main app_ready (initial sample)).2 =
    calls (main app_ready_later (initial sample')).2 ∧
  (main app_ready (initial sample)).1 = (main app_ready_later (initial sample')).1 ∧
  calls (main app_ready (initial sample)).2 = Start :: take 6 program ++ [Stop].
Proof.
  split; [intros H; apply (f_equal cwd) in H; discriminate H|].
  split; [intros H; apply (f_equal (λ E, latency E Start)) in H; discriminate H|].
  apply (C8_calls_do_not_depend_on_inputs app_ready app_ready_later sample sample').
  intros c _. reflexivity.
Defined.

(** C9: the constants of the interaction.  In any run, a fill is of the
    field selected by [name="title"] with the text New Todo Item, a click is
    on the button named Add, and a screenshot goes to the relative path
    jules-scratch/verification/verification.png, which lands under the
    working directory of the process. *)
Theorem C9_interaction_constants (E : env) (i : invocation) (c : call) :
  c ∈ calls (main E (initial i)).2 →
  match c with
  | Fill p target value =>
      p = the_page ∧ value = "New Todo Item"%string ∧
      ∃ selector, target = Css selector ∧
        map Ascii.nat_of_ascii (String.list_ascii_of_string selector) =
        [91; 110; 97; 109; 101; 61; 34; 116; 105; 116; 108; 101; 34; 93]%nat
  | Click p target =>
      p = the_page ∧ target = Role "button" "Add"
  | Screenshot p path full_page =>
      p = the_page ∧
      path = Some "jules-scratch/verification/verification.png"%string ∧
      is_absolute "jules-scratch/verification/verification.png" = false ∧
      output_file i =
        (cwd i +:+ "/" +:+ "jules-scratch/verification/verification.png")%string
  | _ => True
  end.
Proof.
  intros [->|[->|Hc]]%main_calls_elem; [exact I..|].
  unfold program in Hc.
  repeat (apply elem_of_cons in Hc as [->|Hc]; [try exact I|]).
  - split; [reflexivity|]; split; [reflexivity|]; eexists; split; reflexivity.
  - split; reflexivity.
  - split_and!; reflexivity.
  - by apply elem_of_nil in Hc.
Qed.

Lemma C9_interaction_constants_witness :
  let s := (main all_ok (initial sample)).2 in
  calls s !! 7%nat = Some (Fill the_page (Css ("[name=" +:+ dq +:+ "title" +:+ dq +:+ "]"))
                             "New Todo Item") ∧
  calls s !! 8%nat = Some (Click the_page (Role "button" "Add")) ∧
  calls s !! 10%nat =
    Some (Screenshot the_page
            (Some "jules-scratch/verification/verification.png"%string) None) ∧
  output_file sample = "/repo/jules-scratch/verification/verification.png"%string ∧
  is_Some (files s !! "/repo/jules-scratch/verification/verification.png"%string).
Proof.
  intros s.
  assert (Screenshot the_page
            (Some "jules-scratch/verification/verification.png"%string) None
          ∈ calls s) as Hin.
  { by apply (list_elem_of_lookup_2 _ 10%nat). }
  pose proof (C9_interaction_constants all_ok sample _ Hin) as Hshot.
  cbn beta iota in Hshot. destruct Hshot as (_ & _ & _ & Hout).
  split_and!; [reflexivity..|rewrite Hout; reflexivity|].
  vm_compute; by eexists.
Defined.

(** C10: an invocation of [run] launches one browser, Chromium with
    [headless=True]; once it has that browser it opens one page, in that
    browser; and the first element it waits for, the heading, is selected
    by h1. *)
Theorem C10_one_headless_chromium_one_page (E : env) (i : invocation) :
  outcome E Start = None →
  List.filter is_launch (calls (main E (initial i)).2) = [Launch Chromium true] ∧
  (outcome E (Launch Chromium true) = None →
   List.filter is_new_page (calls (main E (initial i)).2) = [NewPage the_browser]) ∧
  (first_failure E (take 3 program) = None →
   head (List.filter is_wait_for_selector (calls (main E (initial i)).2)) =
     Some (WaitForSelector the_page "h1" None)) ∧
  (∀ c, head (List.filter is_wait_for_selector (calls (main E (initial i)).2)) = Some c →
        c = WaitForSelector the_page "h1" None).
Proof.
  rewrite main_calls. unfold program. cbn.
  repeat (next_call E;
          try (solve [intros H0; try discriminate H0; split_and!; intros; congruence])).
Qed.

Lemma C10_one_headless_chromium_one_page_witness :
  outcome slow_ok Start = None ∧
  List.filter is_launch (calls (main slow_ok (initial sample)).2) = [Launch Chromium true] ∧
  List.filter is_new_page (calls (main slow_ok (initial sample)).2) = [NewPage the_browser] ∧
  head (List.filter is_wait_for_selector (calls (main slow_ok (initial sample)).2)) =
    Some (WaitForSelector the_page "h1" None).
Proof.
  split; [reflexivity|].
  destruct (C10_one_headless_chromium_one_page slow_ok sample eq_refl)
    as (Hl & Hp & Hw & _).
  split; [exact Hl|]. split; [exact (Hp eq_refl)|exact (Hw eq_refl)].
Defined.

(** ** Further properties of the run *)

Lemma script_NoDup : NoDup script.
Proof.
  unfold script, program.
  repeat (apply NoDup_cons; split; [intros H; not_in H|]).
  apply NoDup_nil_2.
Qed.

Lemma calls_sublist_script (E : env) (i : invocation) :
  calls (main E (initial i)).2 `sublist_of` script.
Proof.
  rewrite main_calls. unfold script. destruct (outcome E Start).
  - apply sublist_skip, sublist_nil_l.
  - apply sublist_skip, sublist_app; [|done].
    destruct (issued_prefix E program) as [k Hk]. rewrite Hk at 2.
    by apply sublist_inserts_r.
Qed.

(** X1: no retries.  The calls of a run are calls of the script, in the
    order of the script, and none is made twice. *)
Theorem X1_no_call_is_repeated (E : env) (i : invocation) :
  calls (main E (initial i)).2 `sublist_of` script ∧
  NoDup (calls (main E (initial i)).2).
Proof.
  split; [apply calls_sublist_script|].
  eapply sublist_NoDup; [apply script_NoDup|apply calls_sublist_script].
Qed.

(** X2: exceptions are neither caught nor replaced.  The exceptions raised
    during a run are none when [main] returns, and exactly the one [main]
    ends with otherwise. *)
Theorem X2_one_exception_unchanged (E : env) (i : invocation) :
  raised (trace (main E (initial i)).2) =
  match (main E (initial i)).1 with
  | Ok _ => []
  | Raise e => [e]
  end.
Proof.
  unfold raised. unfold_script. cbn.
  repeat (next_call E; try reflexivity).
Qed.

(** X3: the steps run one at a time, in the order of the source.  Of two
    calls next to each other in a run, the second starts when the first
    ends; if the first returned, the second is the next call of the script;
    if the first raised, the second is the driver's stop. *)
Theorem X3_each_step_follows_the_previous (E : env) (i : invocation)
    (k : nat) (a b : event) :
  trace (main E (initial i)).2 !! k = Some a →
  trace (main E (initial i)).2 !! S k = Some b →
  ev_start b = ev_end a ∧
  ((ev_outcome a = None ∧ follows script (ev_call a) (ev_call b)) ∨
   (ev_outcome a ≠ None ∧ ev_call b = Stop)).
Proof.
  unfold follows, script, program, the_page, the_browser. unfold_script. cbn.
  repeat (next_call E; try (solve [intros Ha Hb; adjacent Ha Hb])).
Qed.

Lemma X3_each_step_follows_the_previous_witness :
  let a := Event (Goto the_page "http://localhost:5173") 9 12 (Some NavigationError) in
  let b := Event Stop 12 12 None in
  trace (main no_server (initial sample)).2 !! 3%nat = Some a ∧
  trace (main no_server (initial sample)).2 !! 4%nat = Some b ∧
  ev_start b = ev_end a ∧
  ((ev_outcome a = None ∧ follows script (ev_call a) (ev_call b)) ∨
   (ev_outcome a ≠ None ∧ ev_call b = Stop)).
Proof.
  intros a b. split; [reflexivity|]. split; [reflexivity|].
  exact (X3_each_step_follows_the_previous no_server sample 3 a b eq_refl eq_refl).
Defined.

(** X4: when the driver cannot be started, [run] is not entered: the
    exception leaves [main], the start is the only call, there is no stop,
    and the disk is as before. *)
Theorem X4_failed_start_skips_the_body (E : env) (i : invocation) (e : exn) :
  outcome E Start = Some e →
  (main E (initial i)).1 = Raise e ∧
  calls (main E (initial i)).2 = [Start] ∧
  files (main E (initial i)).2 = disk i ∧
  driver_up (main E (initial i)).2 = false.
Proof.
  intros H0. unfold calls. unfold_script. cbn. rewrite H0. cbn. done.
Qed.

Lemma X4_failed_start_skips_the_body_witness :
  outcome no_driver Start = Some ApiError ∧
  (main no_driver (initial sample')).1 = Raise ApiError ∧
  calls (main no_driver (initial sample')).2 = [Start] ∧
  files (main no_driver (initial sample')).2 = disk sample' ∧
  driver_up (main no_driver (initial sample')).2 = false.
Proof.
  split; [reflexivity|].
  exact (X4_failed_start_skips_the_body no_driver sample' ApiError eq_refl).
Defined.

(** X5: a run can fail after the screenshot is on disk.  When every call
    up to the screenshot returns and [browser.close()] raises, [main] ends
    with that exception, the output file has been replaced all the same,
    and the browser is still given back by the driver's stop. *)
Theorem X5_failed_close_keeps_the_screenshot (E : env) (i : invocation) (e : exn) :
  first_failure E (Start :: take 10 program) = None →
  outcome E (Close the_browser) = Some e →
  (main E (initial i)).1 = Raise e ∧
  (∃ t, files (main E (initial i)).2 =
        <[output_file i := Image the_page t false]> (disk i)) ∧
  open_browsers (main E (initial i)).2 = [].
Proof.
  intros Hpre Hclose. split_and!.
  - rewrite main_result.
    change (Start :: program)
      with ((Start :: take 10 program) ++ [Close the_browser]).
    rewrite first_failure_app, Hpre. cbn. by rewrite Hclose.
  - destruct (main_files E i) as [t Ht]. rewrite Hpre in Ht. by exists t.
  - revert Hpre Hclose. unfold program, the_page, the_browser.
    unfold_script. cbn. repeat (next_call E; try done).
Qed.

Lemma X5_failed_close_keeps_the_screenshot_witness :
  first_failure close_fails (Start :: take 10 program) = None ∧
  (main close_fails (initial sample')).1 = Raise InteractionError ∧
  (∃ t, files (main close_fails (initial sample')).2 =
        <[output_file sample' := Image the_page t false]> (disk sample')) ∧
  open_browsers (main close_fails (initial sample')).2 = [].
Proof.
  split; [reflexivity|].
  exact (X5_failed_close_keeps_the_screenshot close_fails sample'
           InteractionError eq_refl eq_refl).
Defined.

(** X6: when the delay or the screenshot call itself raises, [main] ends
    with an exception and [browser.close()] is not called; when it is the
    delay that raises, the screenshot call is not made either and the disk
    is as before. *)
Theorem X6_failed_delay_or_screenshot (E : env) (i : invocation) (c : call) :
  c ∈ drop 8 (take 10 program) → is_Some (outcome E c) →
  (∃ e, (main E (initial i)).1 = Raise e) ∧
  (Close the_browser ∉ calls (main E (initial i)).2) ∧
  (is_delay c = true →
   List.filter is_screenshot (calls (main E (initial i)).2) = [] ∧
   files (main E (initial i)).2 = disk i).
Proof.
  intros Hc Hfail.
  assert (c ∈ Start :: take 10 program) as Hin.
  { apply elem_of_cons. right.
    rewrite <- (take_drop 8 (take 10 program)). apply elem_of_app. by right. }
  pose proof (first_failure_elem E _ _ Hin Hfail) as [e He].
  split_and!.
  - rewrite main_result.
    change (Start :: program)
      with ((Start :: take 10 program) ++ [Close the_browser]).
    rewrite first_failure_app, He. by eexists.
  - intros Hclose%close_only_after_all_steps. congruence.
  - intros Hd. cbn in Hc.
    apply elem_of_cons in Hc as [->|Hc];
      [|apply elem_of_cons in Hc as [->|Hc];
        [discriminate Hd|by apply elem_of_nil in Hc]].
    destruct Hfail as [e' He']. revert He'.
    unfold calls, the_page. unfold_script. cbn.
    repeat (next_call E; try congruence; try (by split)).
Qed.

Lemma X6_failed_delay_or_screenshot_witness :
  (∃ e, (main delay_fails (initial sample')).1 = Raise e) ∧
  (Close the_browser ∉ calls (main delay_fails (initial sample')).2) ∧
  List.filter is_screenshot (calls (main delay_fails (initial sample')).2) = [] ∧
  files (main delay_fails (initial sample')).2 = disk sample'.
Proof.
  destruct (X6_failed_delay_or_screenshot delay_fails sample'
              (WaitForTimeout the_page 1000)) as (Hr & Hc & Hd).
  - apply (list_elem_of_lookup_2 _ 0%nat). reflexivity.
  - cbn. by eexists.
  - split; [exact Hr|]. split; [exact Hc|]. exact (Hd eq_refl).
Defined.

(** X7: one page, one browser.  In any run, every call on a page is on the
    same page, and that page belongs to the browser on which [new_page] and
    [close] are called. *)
Theorem X7_one_page_of_one_browser (E : env) (i : invocation) (c c' : call) :
  c ∈ calls (main E (initial i)).2 →
  c' ∈ calls (main E (initial i)).2 →
  (∀ p p', page_of c = Some p → page_of c' = Some p' → p = p') ∧
  (∀ p b, page_of c = Some p → browser_of c' = Some b → owner_of p = b) ∧
  (∀ b b', browser_of c = Some b → browser_of c' = Some b' → b = b').
Proof.
  intros Hc Hc'.
  assert (∀ x, x ∈ calls (main E (initial i)).2 →
               (∀ p, page_of x = Some p → p = the_page) ∧
               (∀ b, browser_of x = Some b → b = the_browser)) as Hone.
  { intros x [->|[->|Hx]]%main_calls_elem; [by split..|].
    unfold program in Hx.
    repeat (apply elem_of_cons in Hx as [->|Hx];
            [split; cbn; intros ? [=]; congruence|]).
    by apply elem_of_nil in Hx. }
  destruct (Hone c Hc) as [Hp Hb], (Hone c' Hc') as [Hp' Hb'].
  split_and!.
  - intros p p' ->%Hp ->%Hp'. reflexivity.
  - intros p b ->%Hp ->%Hb'. reflexivity.
  - intros b b' ->%Hb ->%Hb'. reflexivity.
Qed.

Lemma X7_one_page_of_one_browser_witness :
  let c := Screenshot the_page
             (Some "jules-scratch/verification/verification.png"%string) None in
  let c' := Close the_browser in
  c ∈ calls (main all_ok (initial sample)).2 ∧
  c' ∈ calls (main all_ok (initial sample)).2 ∧
  (∀ p b, page_of c = Some p → browser_of c' = Some b → owner_of p = b).
Proof.
  intros c c'.
  assert (c ∈ calls (main all_ok (initial sample)).2) as Hc.
  { by apply (list_elem_of_lookup_2 _ 10%nat). }
  assert (c' ∈ calls (main all_ok (initial sample)).2) as Hc'.
  { by apply (list_elem_of_lookup_2 _ 11%nat). }
  split; [exact Hc|]. split; [exact Hc'|].
  exact (proj1 (proj2 (X7_one_page_of_one_browser all_ok sample c c' Hc Hc'))).
Defined.

(** X8: the field that is waited for is the field that is filled.  In any
    run, a wait with a state and a fill through a selector name the same
    selector on the same page. *)
Theorem X8_waits_and_fill_share_the_selector (E : env) (i : invocation)
    (p p' : page) (selector selector' st value : string) :
  WaitForSelector p selector (Some st) ∈ calls (main E (initial i)).2 →
  Fill p' (Css selector') value ∈ calls (main E (initial i)).2 →
  selector = selector' ∧ p = p'.
Proof.
  intros [Hw|[Hw|Hw]]%main_calls_elem [Hf|[Hf|Hf]]%main_calls_elem;
    try discriminate.
  unfold program in Hw, Hf.
  repeat (apply elem_of_cons in Hw as [Hw|Hw];
          [try discriminate Hw; injection Hw as -> -> ->|]);
    [| |by apply elem_of_nil in Hw].
  all: repeat (apply elem_of_cons in Hf as [Hf|Hf];
               [try discriminate Hf; injection Hf as -> -> ->|]);
    [done|by apply elem_of_nil in Hf].
Qed.

Lemma X8_waits_and_fill_share_the_selector_witness :
  ∃ selector,
    WaitForSelector the_page selector (Some "visible"%string)
      ∈ calls (main all_ok (initial sample)).2 ∧
    Fill the_page (Css selector) "New Todo Item"
      ∈ calls (main all_ok (initial sample)).2 ∧
    selector = selector ∧ the_page = the_page.
Proof.
  exists ("[name=" +:+ dq +:+ "title" +:+ dq +:+ "]")%string.
  assert (WaitForSelector the_page ("[name=" +:+ dq +:+ "title" +:+ dq +:+ "]")
            (Some "visible"%string) ∈ calls (main all_ok (initial sample)).2) as Hw.
  { by apply (list_elem_of_lookup_2 _ 5%nat). }
  assert (Fill the_page (Css ("[name=" +:+ dq +:+ "title" +:+ dq +:+ "]"))
            "New Todo Item" ∈ calls (main all_ok (initial sample)).2) as Hf.
  { by apply (list_elem_of_lookup_2 _ 7%nat). }
  split; [exact Hw|]. split; [exact Hf|].
  exact (X8_waits_and_fill_share_the_selector all_ok sample _ _ _ _ _ _ Hw Hf).
Defined.

(** X9: in a world that keeps to the documented states of
    [wait_for_selector], the script never gets to its screenshot: no run
    returns, no run calls [screenshot], and the disk is never changed. *)
Theorem X9_conforming_world_no_screenshot (E : env) (i : invocation) :
  conforms E →
  (∃ e, (main E (initial i)).1 = Raise e) ∧
  (∀ c, c ∈ calls (main E (initial i)).2 → is_screenshot c = false) ∧
  files (main E (initial i)).2 = disk i.
Proof.
  intros HE.
  pose proof (HE the_page ("[name=" +:+ dq +:+ "title" +:+ dq +:+ "]")%string
                "enabled"%string enabled_not_documented) as Hen.
  assert (is_Some (first_failure E (Start :: take 9 program))) as [e He].
  { eapply first_failure_elem; [|by rewrite Hen].
    apply (list_elem_of_lookup_2 _ 6%nat). reflexivity. }
  split_and!.
  - rewrite main_result.
    change (Start :: program) with ((Start :: take 9 program) ++ drop 9 program).
    rewrite first_failure_app, He. by eexists.
  - intros c Hc. rewrite main_calls in Hc.
    destruct (outcome E Start) eqn:H0.
    { by apply list_elem_of_singleton in Hc as ->. }
    apply elem_of_cons in Hc as [->|Hc]; [done|].
    apply elem_of_app in Hc as [Hc| ->%list_elem_of_singleton]; [|done].
    destruct (is_screenshot c) eqn:Hs; [exfalso|done].
    pose proof (issued_elem _ _ _ Hc) as Hp.
    assert (c = Screenshot the_page
                  (Some "jules-scratch/verification/verification.png"%string) None)
      as ->.
    { unfold program in Hp.
      repeat (apply elem_of_cons in Hp as [->|Hp]; [done || discriminate Hs|]).
      by apply elem_of_nil in Hp. }
    change program with (take 9 program ++ drop 9 program) in Hc.
    apply issued_reaches in Hc.
    + cbn [first_failure] in He. rewrite H0 in He. congruence.
    + intros H'. cbn in H'. not_in H'.
  - destruct (main_files E i) as [t ->].
    change (take 10 program) with (take 9 program ++ take 1 (drop 9 program)).
    rewrite app_comm_cons, first_failure_app. by rewrite He.
Qed.

Lemma X9_conforming_world_no_screenshot_witness :
  conforms app_ready ∧
  (∃ e, (main app_ready (initial sample')).1 = Raise e) ∧
  (∀ c, c ∈ calls (main app_ready (initial sample')).2 → is_screenshot c = false) ∧
  files (main app_ready (initial sample')).2 = disk sample'.
Proof.
  split; [exact app_ready_conforms|].
  exact (X9_conforming_world_no_screenshot app_ready sample' app_ready_conforms).
Defined.

(** X10: the picture is taken at least one second after the click.  In any
    run, a screenshot call starts no earlier than 1000 milliseconds after
    the click returned. *)
Theorem X10_second_after_the_click (E : env) (i : invocation) (ev : event) :
  ev ∈ trace (main E (initial i)).2 →
  is_screenshot (ev_call ev) = true →
  ∃ ck, ck ∈ trace (main E (initial i)).2 ∧
        ev_call ck = Click the_page (Role "button" "Add") ∧
        ev_outcome ck = None ∧
        ev_end ck + 1000 ≤ ev_start ev.
Proof.
  unfold the_page. unfold_script. cbn.
  repeat (next_call E; try (solve [intros Hin Hs; in_trace Hin Hs])).
  all: intros Hin Hs; in_trace Hin Hs.
  all: eexists; split; [apply (list_elem_of_lookup_2 _ 8%nat); reflexivity|].
  all: cbn; split_and!; try reflexivity; lia.
Qed.

Lemma X10_second_after_the_click_witness :
  let ev := Event (Screenshot the_page
                     (Some "jules-scratch/verification/verification.png"%string) None)
                  1030 1033 None in
  ev ∈ trace (main slow_ok (initial sample)).2 ∧
  ∃ ck, ck ∈ trace (main slow_ok (initial sample)).2 ∧
        ev_call ck = Click the_page (Role "button" "Add") ∧
        ev_outcome ck = None ∧
        ev_end ck + 1000 ≤ ev_start ev.
Proof.
  intros ev.
  assert (ev ∈ trace (main slow_ok (initial sample)).2) as Hin.
  { by apply (list_elem_of_lookup_2 _ 10%nat). }
  split; [exact Hin|].
  exact (X10_second_after_the_click slow_ok sample ev Hin eq_refl).
Defined.
